(** * docs/conf.py of XTools: the documentation build configuration

    [docs/conf.py] is a Python module that the documentation builder
    executes once, top to bottom, in a namespace of its own, and then reads
    the top-level names out of.  The module is a straight line of eight
    assignments of literals.  This file embeds that module: Python values,
    the module namespace, the load as a state-and-error computation, and
    the facts the specification states about the loaded namespace. *)

From Stdlib Require Import NArith String Ascii List.
From stdpp Require Import gmap strings list fin_maps.

Local Open Scope string_scope.
Local Open Scope N_scope.

(** ** Python values *)

(** A Python 3 [str] is a sequence of Unicode code points.  (The [u'...']
    prefix on two of the literals is accepted and ignored by Python 3.) *)
Abbreviation pystr := (list N).

(** The values the module can bind: strings, booleans (what a theme toggle
    holds when it is set) and dictionaries keyed by strings. *)
#[warnings="-register-all"]
Inductive value : Type :=
  | VStr (s : pystr)
  | VBool (b : bool)
  | VDict (d : gmap pystr value).

(** ** Source text and its decoding

    Line 1 of the module declares [coding: utf-8]: the bytes between the
    quotes of a string literal are decoded as UTF-8 to give the code points
    of the [str] object.  A Rocq [string] is a sequence of bytes, so the
    literals below carry exactly the bytes of the source file. *)

Definition source_bytes (src : string) : list N :=
  map N_of_ascii (list_ascii_of_string src).

(** A continuation byte is [10xxxxxx]. *)
Definition is_cont (b : N) : bool := (0x80 <=? b) && (b <? 0xC0).

(** The payload bits of a continuation byte. *)
Definition cont_bits (b : N) : N := N.land b 0x3F.

(** Strict UTF-8: shortest form only, no surrogates, nothing above
    U+10FFFF.  [None] is the decoder's error. *)
Fixpoint utf8_decode (bs : list N) : option pystr :=
  match bs with
  | [] => Some []
  | b0 :: r0 =>
    if b0 <? 0x80 then
      cons b0 <$> utf8_decode r0
    else if (0xC2 <=? b0) && (b0 <? 0xE0) then
      match r0 with
      | b1 :: r1 =>
        if is_cont b1 then
          cons (N.shiftl (N.land b0 0x1F) 6 + cont_bits b1) <$> utf8_decode r1
        else None
      | _ => None
      end
    else if (0xE0 <=? b0) && (b0 <? 0xF0) then
      match r0 with
      | b1 :: b2 :: r2 =>
        let cp := N.shiftl (N.land b0 0x0F) 12
                  + N.shiftl (cont_bits b1) 6 + cont_bits b2 in
        if is_cont b1 && is_cont b2
           && (0x800 <=? cp) && negb ((0xD800 <=? cp) && (cp <? 0xE000))
        then cons cp <$> utf8_decode r2
        else None
      | _ => None
      end
    else if (0xF0 <=? b0) && (b0 <? 0xF5) then
      match r0 with
      | b1 :: b2 :: b3 :: r3 =>
        let cp := N.shiftl (N.land b0 0x07) 18
                  + N.shiftl (cont_bits b1) 12
                  + N.shiftl (cont_bits b2) 6 + cont_bits b3 in
        if is_cont b1 && is_cont b2 && is_cont b3
           && (0x10000 <=? cp) && (cp <? 0x110000)
        then cons cp <$> utf8_decode r3
        else None
      | _ => None
      end
    else None
  end.

(** The [str] whose characters are the given ASCII characters; used to
    write expected values. *)
Definition ascii_str (s : string) : pystr := source_bytes s.

(** ** The load as a computation *)

(** What a load can raise.  The statements of this module are assignments
    of literals, and the one thing that can go wrong with a literal is that
    its bytes are not text in the declared encoding. *)
Inductive exn : Type :=
  | SyntaxError (literal : string).

Inductive Except (E A : Type) : Type :=
  | Err (e : E)
  | Ok (a : A).
Arguments Err {E A} e.
Arguments Ok {E A} a.

(** A statement runs against the module namespace and either raises or
    yields a result and the namespace it leaves behind. *)
Definition Load (A : Type) : Type :=
  gmap string value → Except exn (A * gmap string value).

#[global] Instance Load_ret : MRet Load := λ A a ns, Ok (a, ns).

#[global] Instance Load_bind : MBind Load := λ A B k m ns,
  match m ns with
  | Err e => Err e
  | Ok (a, ns') => k a ns'
  end.

Definition raise {A} (e : exn) : Load A := λ _, Err e.

(** A string literal: decode the bytes between the quotes. *)
Definition str_lit (src : string) : Load value :=
  match utf8_decode (source_bytes src) with
  | Some cps => mret (VStr cps)
  | None => raise (SyntaxError src)
  end.

(** A dictionary display [{k1: v1, ...}]: entries are stored left to right,
    a repeated key keeps its last value. *)
Definition dict_display (items : list (pystr * value)) : Load value :=
  mret (VDict (fold_left (λ d kv, <[kv.1 := kv.2]> d) items ∅)).

(** Binding (or rebinding) a top-level name. *)
Definition store (name : string) (v : value) : Load unit :=
  λ ns, Ok (tt, <[name := v]> ns).

(** [name = e]: evaluate the right-hand side, then bind the name to its
    value. *)
Definition assign (name : string) (e : Load value) : Load unit :=
  v ← e; store name v.

(** ** The module

    The body of [docs/conf.py], statement by statement.  Comment lines are
    not statements; in particular the three lines inside the braces of
    [html_theme_options] are comments, so the display has no entries. *)
Definition conf : Load unit :=
  assign "source_suffix" (str_lit ".rst");;
  assign "master_doc" (str_lit "index");;
  assign "project" (str_lit "XTools");;
  assign "copyright" (str_lit "2008–2020, XTools contributors");;
  assign "version" (str_lit "3.11");;
  assign "release" (str_lit "3.11.0");;
  assign "html_theme" (str_lit "sphinx_rtd_theme");;
  assign "html_theme_options" (dict_display []).

(** Loading the configuration: run the module in the namespace the builder
    prepared and hand back the namespace it leaves. *)
Definition load (ns : gmap string value) : Except exn (gmap string value) :=
  match conf ns with
  | Err e => Err e
  | Ok (_, ns') => Ok ns'
  end.

(** The configuration fields the builder recognises in this module. *)
Definition conf_fields : list string :=
  [ "source_suffix"; "master_doc"; "project"; "copyright";
    "version"; "release"; "html_theme"; "html_theme_options" ].

(** U+2013 EN DASH. *)
Definition en_dash : N := 0x2013.

(** The text of the copyright notice, character by character. *)
Definition copyright_text : pystr :=
  ascii_str "2008" ++ [en_dash] ++ ascii_str "2020, XTools contributors".

(** What the eight assignments store, as a table built in execution
    order. *)
Definition conf_table : gmap string value :=
  <["html_theme_options" := VDict ∅]>
  (<["html_theme" := VStr (ascii_str "sphinx_rtd_theme")]>
  (<["release" := VStr (ascii_str "3.11.0")]>
  (<["version" := VStr (ascii_str "3.11")]>
  (<["copyright" := VStr copyright_text]>
  (<["project" := VStr (ascii_str "XTools")]>
  (<["master_doc" := VStr (ascii_str "index")]>
  (<["source_suffix" := VStr (ascii_str ".rst")]> ∅))))))).

(** Reading a field out of the result of a load. *)
Definition field (name : string) (r : Except exn (gmap string value))
  : option value :=
  match r with
  | Err _ => None
  | Ok ns => ns !! name
  end.

(** Whether every byte of a literal is ASCII. *)
Definition is_ascii (src : string) : bool :=
  forallb (λ b, b <? 0x80) (source_bytes src).

(** ** The module as a list of statements

    The same eight lines as [conf], each as its target name and its
    right-hand side, in source order; used to speak of the order of the
    lines. *)
Definition conf_stmts : list (string * Load value) :=
  [ ("source_suffix", str_lit ".rst");
    ("master_doc", str_lit "index");
    ("project", str_lit "XTools");
    ("copyright", str_lit "2008–2020, XTools contributors");
    ("version", str_lit "3.11");
    ("release", str_lit "3.11.0");
    ("html_theme", str_lit "sphinx_rtd_theme");
    ("html_theme_options", dict_display []) ].

(** Running assignment statements one after the other. *)
Fixpoint run_stmts (l : list (string * Load value)) : Load unit :=
  match l with
  | [] => mret tt
  | (name, e) :: l' => assign name e;; run_stmts l'
  end.

(** Loading a module made of the given statements. *)
Definition load_stmts (l : list (string * Load value))
    (ns : gmap string value) : Except exn (gmap string value) :=
  match run_stmts l ns with
  | Err e => Err e
  | Ok (_, ns') => Ok ns'
  end.

(** A right-hand side is a constant when it yields the same value in every
    namespace and leaves the namespace alone. *)
Definition constant_rhs (e : Load value) : Prop :=
  ∃ v, ∀ ns, e ns = Ok (v, ns).

(** The binding a statement makes, read off by evaluating its right-hand
    side in the empty namespace. *)
Definition stmt_binding (s : string * Load value) : option (string * value) :=
  match s.2 ∅ with
  | Ok (v, _) => Some (s.1, v)
  | Err _ => None
  end.

(** ** The decoder *)

(** ASCII bytes decode to themselves. *)
Lemma utf8_decode_ascii (bs : list N) :
  forallb (λ b, b <? 0x80) bs = true → utf8_decode bs = Some bs.
Proof.
  induction bs as [|b bs IH]; [done|].
  intros [Hb Hbs]%andb_prop. simpl in *.
  by rewrite Hb, (IH Hbs).
Qed.

(** Decoding never invents or drops text silently: the result is never
    longer than the input. *)
Lemma utf8_decode_length (n : nat) :
  ∀ bs cps, (length bs ≤ n)%nat →
    utf8_decode bs = Some cps → (length cps ≤ length bs)%nat.
Proof.
  induction n as [|n IH]; intros bs cps Hn.
  { destruct bs; simpl in *; [|lia]. by intros [= <-]. }
  destruct bs as [|b0 r0]; [by intros [= <-]|].
  cbn [utf8_decode].
  repeat case_match; try done;
    destruct (utf8_decode _) as [tl|] eqn:Htl; try done;
    intros [= <-]; subst; simpl in *;
    (apply IH in Htl; [lia | lia]).
Qed.

(** The bytes [E2 80 93] are the en dash. *)
Example utf8_decode_en_dash : utf8_decode [0xE2; 0x80; 0x93] = Some [en_dash].
Proof. reflexivity. Qed.

(** The same character in a single-byte encoding (byte [96] in
    Windows-1252) is not UTF-8: a literal saved that way is rejected. *)
Example str_lit_not_utf8 (ns : gmap string value) :
  str_lit (String "150" "") ns = Err (SyntaxError (String "150" "")).
Proof. reflexivity. Qed.

(** ** Running statements *)

Lemma str_lit_decoded (src : string) (cps : pystr) (ns : gmap string value) :
  utf8_decode (source_bytes src) = Some cps →
  str_lit src ns = Ok (VStr cps, ns).
Proof. intros H. unfold str_lit. by rewrite H. Qed.

Lemma str_lit_ascii (src : string) (ns : gmap string value) :
  is_ascii src = true → str_lit src ns = Ok (VStr (ascii_str src), ns).
Proof. intros H. by apply str_lit_decoded, utf8_decode_ascii. Qed.

Lemma assign_ok (name : string) (e : Load value) (v : value)
    (ns ns' : gmap string value) :
  e ns = Ok (v, ns') → assign name e ns = Ok (tt, <[name := v]> ns').
Proof. intros H. unfold assign, mbind, Load_bind. by rewrite H. Qed.

Lemma seq_ok {A B} (m : Load A) (k : Load B) (a : A)
    (ns ns' : gmap string value) :
  m ns = Ok (a, ns') → (m ;; k) ns = k ns'.
Proof. intros H. unfold mbind, Load_bind. by rewrite H. Qed.

Lemma assign_str_ascii (name src : string) (ns : gmap string value) :
  is_ascii src = true →
  assign name (str_lit src) ns = Ok (tt, <[name := VStr (ascii_str src)]> ns).
Proof. intros H. by apply assign_ok, str_lit_ascii. Qed.

(** The copyright literal is the one that is not plain ASCII. *)
Lemma copyright_decoded :
  utf8_decode (source_bytes "2008–2020, XTools contributors")
  = Some copyright_text.
Proof. vm_compute. reflexivity. Qed.

(** ** The whole module *)

(** A load in any namespace succeeds, and leaves the table of the module
    laid over what was there. *)
Lemma load_run (ns : gmap string value) : load ns = Ok (conf_table ∪ ns).
Proof.
  unfold load, conf.
  do 3 (erewrite seq_ok by (by apply assign_str_ascii)).
  erewrite seq_ok by apply assign_ok, str_lit_decoded, copyright_decoded.
  do 3 (erewrite seq_ok by (by apply assign_str_ascii)).
  erewrite assign_ok by reflexivity.
  f_equal. unfold conf_table. simpl fold_left.
  rewrite <- !insert_union_l. by rewrite (left_id_L ∅ (∪)).
Qed.

(** A name the module assigns reads back from the table, whatever the
    namespace held before. *)
Lemma load_field (ns : gmap string value) (name : string) (v : value) :
  conf_table !! name = Some v → field name (load ns) = Some v.
Proof.
  intros H. rewrite load_run. simpl. by apply lookup_union_Some_l.
Qed.

(** A name the module does not assign is left as it was. *)
Lemma load_frame (ns : gmap string value) (name : string) :
  conf_table !! name = None → field name (load ns) = ns !! name.
Proof.
  intros H. rewrite load_run. simpl. by apply lookup_union_r.
Qed.

(** Every recognised field is assigned by the module. *)
Lemma conf_fields_assigned :
  Forall (λ f, is_Some (conf_table !! f)) conf_fields.
Proof. unfold conf_fields. repeat constructor; vm_compute; eauto. Qed.

(** Loading over an already loaded namespace changes nothing. *)
Lemma conf_table_absorb (ns : gmap string value) :
  conf_table ∪ (conf_table ∪ ns) = conf_table ∪ ns.
Proof. by rewrite (assoc_L (∪)), (idemp_L (∪)). Qed.

(** "Every key that is present maps to false" and "every key is unset or
    false" say the same of a mapping of toggles. *)
Lemma toggles_off_iff (opts : gmap pystr value) :
  (∀ k v, opts !! k = Some v → v = VBool false)
  ↔ (∀ k, opts !! k = None ∨ opts !! k = Some (VBool false)).
Proof.
  split.
  - intros H k. destruct (opts !! k) as [v|] eqn:Hk; [|by left].
    right. by rewrite (H k v Hk).
  - intros H k v Hk. destruct (H k) as [Hn|Hs]; congruence.
Qed.

(** ** The configuration as loaded *)

(** Running the module in the empty namespace. *)
Example load_empty_version :
  field "version" (load ∅) = Some (VStr [51; 46; 49; 49]).
Proof. vm_compute. reflexivity. Qed.

(** A stale toggle left in the namespace is replaced by the load. *)
Example load_replaces_options :
  field "html_theme_options"
        (load {[ "html_theme_options" :=
                   VDict {[ ascii_str "slidetoc" := VBool true ]} ]})
  = Some (VDict ∅).
Proof. vm_compute. reflexivity. Qed.

(** C1: every load, from whatever namespace, succeeds and leaves [project]
    bound to the string XTools written in the file. *)
Theorem project_is_XTools (ns : gmap string value) :
  ∃ ns', load ns = Ok ns'
         ∧ ns' !! "project" = Some (VStr (ascii_str "XTools")).
Proof.
  exists (conf_table ∪ ns). split; [apply load_run|].
  by apply lookup_union_Some_l.
Qed.

(** C2: every load leaves [version] bound to the string 3.11 and [release]
    bound to the string 3.11.0. *)
Theorem version_and_release (ns : gmap string value) :
  ∃ ns', load ns = Ok ns'
         ∧ ns' !! "version" = Some (VStr (ascii_str "3.11"))
         ∧ ns' !! "release" = Some (VStr (ascii_str "3.11.0")).
Proof.
  exists (conf_table ∪ ns). split; [apply load_run|].
  split; by apply lookup_union_Some_l.
Qed.

(** C3: after a load [html_theme_options] is a mapping in which every key
    is either unset or false: no theme toggle is enabled. *)
Theorem theme_toggles_disabled (ns : gmap string value) :
  ∃ ns' opts, load ns = Ok ns'
    ∧ ns' !! "html_theme_options" = Some (VDict opts)
    ∧ ∀ k, opts !! k = None ∨ opts !! k = Some (VBool false).
Proof.
  exists (conf_table ∪ ns), ∅. split; [apply load_run|].
  split; [by apply lookup_union_Some_l|].
  intros k. left. apply lookup_empty.
Qed.

(** C4: two loads, from any two namespaces, both succeed and agree on every
    recognised field, each of which is bound; and loading again over the
    result of a load gives that same namespace back. *)
Theorem load_idempotent_deterministic (ns1 ns2 : gmap string value) :
  ∃ l1 l2, load ns1 = Ok l1 ∧ load ns2 = Ok l2
    ∧ Forall (λ f, is_Some (l1 !! f) ∧ l1 !! f = l2 !! f) conf_fields
    ∧ load l1 = Ok l1.
Proof.
  exists (conf_table ∪ ns1), (conf_table ∪ ns2).
  split; [apply load_run|]. split; [apply load_run|]. split.
  - eapply Forall_impl; [apply conf_fields_assigned|].
    intros f [v Hv]. simpl.
    rewrite (lookup_union_Some_l _ ns1 _ _ Hv).
    rewrite (lookup_union_Some_l _ ns2 _ _ Hv). eauto.
  - by rewrite load_run, conf_table_absorb.
Qed.

(** C5: a load never raises: from every namespace it returns a namespace,
    and it returns no error. *)
Theorem load_never_raises (ns : gmap string value) :
  (∃ ns', load ns = Ok ns') ∧ ∀ e, load ns ≠ Err e.
Proof.
  rewrite load_run. split; [eauto|]. intros e. discriminate.
Qed.

(** C6: every load leaves [source_suffix] bound to the string .rst. *)
Theorem source_suffix_is_rst (ns : gmap string value) :
  ∃ ns', load ns = Ok ns'
         ∧ ns' !! "source_suffix" = Some (VStr (ascii_str ".rst")).
Proof.
  exists (conf_table ∪ ns). split; [apply load_run|].
  by apply lookup_union_Some_l.
Qed.

(** C7: every load leaves [master_doc] bound to the string index. *)
Theorem master_doc_is_index (ns : gmap string value) :
  ∃ ns', load ns = Ok ns'
         ∧ ns' !! "master_doc" = Some (VStr (ascii_str "index")).
Proof.
  exists (conf_table ∪ ns). split; [apply load_run|].
  by apply lookup_union_Some_l.
Qed.

(** C8: every load leaves [html_theme] bound to the string
    sphinx_rtd_theme. *)
Theorem html_theme_is_rtd (ns : gmap string value) :
  ∃ ns', load ns = Ok ns'
         ∧ ns' !! "html_theme" = Some (VStr (ascii_str "sphinx_rtd_theme")).
Proof.
  exists (conf_table ∪ ns). split; [apply load_run|].
  by apply lookup_union_Some_l.
Qed.

(** C9: every load leaves [copyright] bound to the thirty-character string
    made of 2008, an en dash (U+2013), and 2020, XTools contributors. *)
Theorem copyright_has_en_dash (ns : gmap string value) :
  ∃ ns' text, load ns = Ok ns'
    ∧ ns' !! "copyright" = Some (VStr text)
    ∧ text = (ascii_str "2008" ++ [0x2013]
              ++ ascii_str "2020, XTools contributors")%list
    ∧ text !! 4%nat = Some en_dash
    ∧ length text = 30%nat.
Proof.
  exists (conf_table ∪ ns), copyright_text. split; [apply load_run|].
  split; [by apply lookup_union_Some_l|]. by repeat split.
Qed.

(** C10: after a load [html_theme_options] is the empty mapping: looking
    up any key in it finds nothing. *)
Theorem theme_options_empty (ns : gmap string value) :
  ∃ ns' opts, load ns = Ok ns'
    ∧ ns' !! "html_theme_options" = Some (VDict opts)
    ∧ opts = ∅
    ∧ ∀ k, opts !! k = None.
Proof.
  exists (conf_table ∪ ns), ∅. split; [apply load_run|].
  split; [by apply lookup_union_Some_l|].
  split; [done|]. intros k. apply lookup_empty.
Qed.

(** ** What a load leaves alone *)






(** X3: the full release string is the short version followed by [.0]. *)
Theorem release_extends_version (ns : gmap string value) :
  ∃ ns' v r, load ns = Ok ns'
    ∧ ns' !! "version" = Some (VStr v)
    ∧ ns' !! "release" = Some (VStr r)
    ∧ r = (v ++ ascii_str ".0")%list.
Proof.
  exists (conf_table ∪ ns), (ascii_str "3.11"), (ascii_str "3.11.0").
  split; [apply load_run|].
  repeat split; by apply lookup_union_Some_l.
Qed.

(** ** The order of the lines *)

(** Every right-hand side in the module is a literal: a constant. *)
Lemma conf_stmts_constant : Forall (λ s, constant_rhs s.2) conf_stmts.
Proof.
  unfold conf_stmts, constant_rhs. repeat apply Forall_cons_2; simpl;
    try apply Forall_nil_2.
  1-3, 5-7: by eexists; intros ns; apply str_lit_ascii.
  - eexists. intros ns. apply str_lit_decoded, copyright_decoded.
  - by eexists.
Qed.

(** No name is assigned twice. *)
Lemma conf_stmts_names : conf_stmts.*1 = conf_fields ∧ NoDup conf_fields.
Proof. split; [done|]. unfold conf_fields. compute_done. Qed.

(** The names the statements bind are the recognised fields. *)
Lemma conf_stmts_bound : (omap stmt_binding conf_stmts).*1 = conf_fields.
Proof. vm_compute. reflexivity. Qed.

(** Statements with constant right-hand sides always run to the end, and
    leave their bindings laid over the namespace, later ones on top. *)
Lemma run_stmts_constant (l : list (string * Load value)) :
  Forall (λ s, constant_rhs s.2) l →
  ∀ ns, run_stmts l ns
        = Ok (tt, list_to_map (reverse (omap stmt_binding l)) ∪ ns).
Proof.
  induction 1 as [|[name e] l [v Hv] _ IH]; intros ns.
  { simpl. unfold mret, Load_ret. by rewrite (left_id_L ∅ (∪)). }
  simpl in Hv. cbn [run_stmts].
  erewrite seq_ok by (apply assign_ok, Hv). rewrite IH.
  cbn [omap list_omap]. unfold stmt_binding at 2. simpl. rewrite Hv.
  rewrite reverse_cons, list_to_map_app. simpl.
  rewrite <- (assoc_L (∪)). do 3 f_equal.
  rewrite insert_empty. apply insert_union_singleton_l.
Qed.

(** The bindings of the module, read off its statements, are the table. *)
Lemma conf_stmts_table :
  list_to_map (reverse (omap stmt_binding conf_stmts)) = conf_table.
Proof. vm_compute. reflexivity. Qed.

(** X4: the eight lines can stand in any order: a module made of the same
    statements in another order loads to the same namespace. *)
Theorem load_order_irrelevant (l : list (string * Load value))
    (ns : gmap string value) :
  l ≡ₚ conf_stmts → load_stmts l ns = load ns.
Proof.
  intros Hp. unfold load_stmts.
  rewrite run_stmts_constant by (rewrite Hp; apply conf_stmts_constant).
  rewrite load_run, <- conf_stmts_table. do 2 f_equal.
  assert (Hb : omap stmt_binding l ≡ₚ omap stmt_binding conf_stmts)
    by (by apply omap_Permutation).
  apply list_to_map_proper.
  - eapply NoDup_Permutation_proper.
    { apply fmap_Permutation. etransitivity; [apply reverse_Permutation|].
      exact Hb. }
    rewrite conf_stmts_bound. apply conf_stmts_names.
  - etransitivity; [apply reverse_Permutation|].
    etransitivity; [exact Hb|]. symmetry. apply reverse_Permutation.
Qed.

Lemma load_order_irrelevant_witness :
  load_stmts (rev conf_stmts) ∅ = load ∅.
Proof.
  apply (load_order_irrelevant (rev conf_stmts) ∅).
  symmetry. apply Permutation_rev.
Defined.
